(** * notebooks/apps/hv_obj.py

  The application is a thirteen-line Python script: three imports, one
  backend initialisation, one line that loads a dataset, one line that
  datashades it, and two lines that render the result as a bokeh server
  document and give that document a title.  Every call of the script goes
  to an external library (dask, holoviews, datashader, bokeh), so the
  script is embedded as a program in a state-and-exception monad whose
  external calls are answered by a library handler [lib], a parameter of
  the development.  What the interpreter itself does (sequencing, exception
  propagation, the record of the requests made) is defined here. *)

From stdpp Require Import base strings list gmap.
From Stdlib Require Import ZArith.

Set Warnings "-register-all".

Local Open Scope Z_scope.
Local Open Scope string_scope.
Local Open Scope list_scope.

(** ** Python values, exceptions and external actions *)

Module Py.

Definition loc := positive.

Inductive pyval :=
| VNone
| VInt (n : Z)
| VStr (s : string)
| VList (xs : list pyval)
| VDict (kvs : list (string * pyval))
| VRef (l : loc).

Record exn := Exn { exn_class : string; exn_arg : string }.

Inductive outcome (A : Type) :=
| Ok (a : A)
| Raise (e : exn).
Arguments Ok {A} a.
Arguments Raise {A} e.

(** The target of a call: a name looked up in the module's globals
    (possibly dotted, [hv.extension]) or a method of a receiver. *)
Inductive callee :=
| Global (name : string)
| Method (recv : pyval) (name : string).

Inductive action :=
| Import (module : string)
| Call (f : callee) (args : list pyval) (kwargs : list (string * pyval))
| SetAttr (obj : pyval) (attr : string) (v : pyval).

Record event := Event { ev_action : action; ev_result : outcome pyval }.

(** Attribute dictionaries of the objects, by identity. *)
Abbreviation heap := (gmap loc (gmap string pyval)).

Definition getattr (h : heap) (o : pyval) (a : string) : option pyval :=
  match o with
  | VRef l => h !! l ≫= (λ d : gmap string pyval, d !! a)
  | _ => None
  end.

(** The binding an accepted assignment [o.a = v] leaves behind: reading
    [o.a] gives [v] afterwards. *)
Definition bind_attr (h : heap) (l : loc) (a : string) (v : pyval) : heap :=
  <[l := <[a := v]> (default ∅ (h !! l))]> h.

End Py.
Import Py.

(** ** The interpreter monad *)

Section Interp.

(** Private state of the external libraries. *)
Context {W : Type}.

Record store := Store { lib_state : W; attrs : heap }.

Record state := State { st_store : store; st_trace : list event }.

Definition M (A : Type) : Type := state → state * outcome A.

#[global] Instance M_ret : MRet M := λ A a s, (s, Ok a).

#[global] Instance M_bind : MBind M := λ A B f m s,
  match m s with
  | (s', Ok a) => f a s'
  | (s', Raise e) => (s', Raise e)
  end.

Definition library := action → store → store * outcome pyval.

Variable lib : library.

Definition log (a : action) (r : outcome pyval) (tr : list event) :=
  tr ++ [Event a r].

(** An external call or import: the library answers, the event is
    recorded, an exception propagates. *)
Definition perform (a : action) : M pyval := λ s,
  let '(σ, r) := lib a (st_store s) in
  (State σ (log a r (st_trace s)), r).

Definition import (module : string) : M pyval := perform (Import module).

Definition call (f : callee) (args : list pyval)
    (kwargs : list (string * pyval)) : M pyval :=
  perform (Call f args kwargs).

(** [o.a = v].  None, numbers, strings, lists and dicts have no attribute
    to assign: AttributeError.  On an object the assignment is dispatched
    on the object's type, which is library code: it may refuse with an
    exception of its own, which propagates; when it accepts, the binding is
    in place. *)
Definition setattr (o : pyval) (a : string) (v : pyval) : M pyval := λ s,
  match o with
  | VRef l =>
      let '(σ, r) := lib (SetAttr (VRef l) a v) (st_store s) in
      match r with
      | Ok _ =>
          (State (Store (lib_state σ) (bind_attr (attrs σ) l a v))
                 (log (SetAttr (VRef l) a v) (Ok VNone) (st_trace s)),
           Ok VNone)
      | Raise e =>
          (State σ (log (SetAttr (VRef l) a v) (Raise e) (st_trace s)),
           Raise e)
      end
  | _ =>
      (State (st_store s)
             (log (SetAttr o a v) (Raise (Exn "AttributeError" a))
                  (st_trace s)),
       Raise (Exn "AttributeError" a))
  end.

(** ** The script *)

Definition data_path : string := "../data/nyc_taxi_hours.parq/".

Definition plot_opts : pyval :=
  VDict [("width", VInt 800); ("height", VInt 600); ("bgcolor", VStr "black")].

(** Lines 1-3. *)
Definition imports : M pyval :=
  import "dask.dataframe";;
  import "holoviews";;
  import "holoviews.operation.datashader".

(** Line 8:
    [df = dd.read_parquet(path)[['dropoff_x', 'dropoff_y']].persist()] *)
Definition load_data : M pyval :=
  ddf ← call (Global "dd.read_parquet") [VStr data_path] [];
  sel ← call (Method ddf "__getitem__")
             [VList [VStr "dropoff_x"; VStr "dropoff_y"]] [];
  call (Method sel "persist") [] [].

(** Line 9:
    [shaded = datashade(hv.Points(df)).opts(plot=dict(width=800, ...))] *)
Definition shade (df : pyval) : M pyval :=
  pts ← call (Global "hv.Points") [df] [];
  img ← call (Global "datashade") [pts] [];
  call (Method img "opts") [] [("plot", plot_opts)].

(** Lines 12-13. *)
Definition render (shaded : pyval) : M pyval :=
  rdr ← call (Global "hv.renderer") [VStr "bokeh"] [];
  doc ← call (Method rdr "server_doc") [shaded] [];
  setattr doc "title" (VStr "HoloViews Bokeh App");;
  mret doc.

(** The module's globals once the script has run. *)
Record globals := Globals { g_df : pyval; g_shaded : pyval; g_doc : pyval }.

(** Lines 1-5. *)
Definition startup : M pyval :=
  imports;;
  call (Global "hv.extension") [VStr "bokeh"] [].

(** Lines 9-13, with [df] bound. *)
Definition present (df : pyval) : M globals :=
  shaded ← shade df;
  doc ← render shaded;
  mret (Globals df shaded doc).

Definition hv_obj : M globals :=
  startup;;
  df ← load_data;
  present df.

Definition run {A} (m : M A) (σ : store) : state * outcome A :=
  m (State σ []).

End Interp.

(** ** Reading a run *)

(** The call site an action comes from, by the name the source writes. *)
Definition site (a : action) : string :=
  match a with
  | Import m => "import " +:+ m
  | Call (Global n) _ _ => n
  | Call (Method _ n) _ _ => "." +:+ n
  | SetAttr _ n _ => "." +:+ n +:+ " ="
  end.

Definition sites (tr : list event) : list string :=
  (λ ev, site (ev_action ev)) <$> tr.

(** The statements of the script, top to bottom. *)
Definition script_sites : list string :=
  [ "import dask.dataframe"; "import holoviews";
    "import holoviews.operation.datashader";
    "hv.extension";
    "dd.read_parquet"; ".__getitem__"; ".persist";
    "hv.Points"; "datashade"; ".opts";
    "hv.renderer"; ".server_doc"; ".title =" ].

(** The two statements that need the rendering backend. *)
Definition renders (a : action) : bool :=
  bool_decide (site a ∈ ["hv.renderer"; ".server_doc"]).

(** ** Tables

    The data model the claims about the loaded dataset are stated in: a
    partitioned table of rows under named columns.  What a dataframe handle
    of the library denotes is given by the library (see the contracts
    below); the script never looks inside one. *)

Section Table.

Context {cell : Type}.

Record table := Table {
  colnames : list string;
  parts : list (list (list cell))
}.

Definition nrows (t : table) : nat := sum_list (length <$> parts t).

Definition column_index (c : string) (cs : list string) : option nat :=
  fst <$> list_find (λ c', c' = c) cs.

Definition project_row (src cols : list string) (r : list cell) : list cell :=
  omap (λ c, column_index c src ≫= (λ i, r !! i)) cols.

(** Indexing a frame with a list of column names: the named columns, in
    the order asked for, all rows kept; a name that is not a column is a
    KeyError. *)
Definition select (cols : list string) (t : table) : option table :=
  if forallb (λ c, bool_decide (c ∈ colnames t)) cols
  then Some (Table cols (map (map (project_row (colnames t) cols)) (parts t)))
  else None.

End Table.
Arguments table cell : clear implicits.

(** ** A small executable library

    The theorems below hold for every library handler.  To run the script on
    concrete inputs this module provides one: datasets on a disk, backends
    that must be loaded before a renderer is handed out, and objects
    allocated at fresh locations. *)

Module Demo.

Inductive obj :=
| Frame (t : table Z)
| PointSet (data : pyval)
| Shaded (src : pyval) (options : list (string * pyval))
| Renderer (backend : string)
| Document (root : pyval).

Record world := World {
  disk : gmap string (table Z);
  backends : list string;
  objects : gmap loc obj
}.

Definition new (o : obj) (w : world) : world * outcome pyval :=
  let l := fresh (dom (objects w)) in
  (World (disk w) (backends w) (<[l := o]> (objects w)), Ok (VRef l)).

Definition fail (cls arg : string) (w : world) : world * outcome pyval :=
  (w, Raise (Exn cls arg)).

Definition deref (w : world) (v : pyval) : option obj :=
  match v with
  | VRef l => objects w !! l
  | _ => None
  end.

Definition frame (w : world) (v : pyval) : option (table Z) :=
  match deref w v with
  | Some (Frame t) => Some t
  | _ => None
  end.

Definition name_of (v : pyval) : option string :=
  match v with
  | VStr s => Some s
  | _ => None
  end.

Definition names (v : pyval) : option (list string) :=
  match v with
  | VList xs => mapM name_of xs
  | _ => None
  end.

Definition loaded (w : world) (b : string) : bool :=
  bool_decide (b ∈ backends w).

Definition global_call (f : string) (args : list pyval) (w : world)
  : world * outcome pyval :=
  if String.eqb f "hv.extension" then
    match args with
    | [VStr b] =>
        (World (disk w) (b :: backends w) (objects w), Ok VNone)
    | _ => fail "TypeError" f w
    end
  else if String.eqb f "dd.read_parquet" then
    match args with
    | [VStr p] =>
        match disk w !! p with
        | Some t => new (Frame t) w
        | None => fail "FileNotFoundError" p w
        end
    | _ => fail "TypeError" f w
    end
  else if String.eqb f "hv.Points" then
    match args with
    | [d] =>
        match frame w d with
        | Some _ => new (PointSet d) w
        | None => fail "TypeError" f w
        end
    | _ => fail "TypeError" f w
    end
  else if String.eqb f "datashade" then
    match args with
    | [p] =>
        match deref w p with
        | Some (PointSet _) => new (Shaded p []) w
        | _ => fail "TypeError" f w
        end
    | _ => fail "TypeError" f w
    end
  else if String.eqb f "hv.renderer" then
    match args with
    | [VStr b] =>
        if loaded w b then new (Renderer b) w else fail "BackendNotLoaded" b w
    | _ => fail "TypeError" f w
    end
  else fail "NameError" f w.

Definition method_call (recv : pyval) (f : string) (args : list pyval)
    (kwargs : list (string * pyval)) (w : world) : world * outcome pyval :=
  match deref w recv with
  | Some (Frame t) =>
      if String.eqb f "__getitem__" then
        match args with
        | [cols] =>
            match names cols ≫= (λ cs, select cs t) with
            | Some t' => new (Frame t') w
            | None => fail "KeyError" f w
            end
        | _ => fail "TypeError" f w
        end
      else if String.eqb f "persist" then new (Frame t) w
      else fail "AttributeError" f w
  | Some (Shaded src _) =>
      if String.eqb f "opts" then new (Shaded src kwargs) w
      else fail "AttributeError" f w
  | Some (Renderer b) =>
      if String.eqb f "server_doc" then
        match args with
        | [root] =>
            if loaded w b then new (Document root) w
            else fail "BackendNotLoaded" b w
        | _ => fail "TypeError" f w
        end
      else fail "AttributeError" f w
  | _ => fail "AttributeError" f w
  end.

Definition answer (a : action) (w : world) : world * outcome pyval :=
  match a with
  | Import _ => (w, Ok VNone)
  | Call (Global f) args _ => global_call f args w
  | Call (Method recv f) args kwargs => method_call recv f args kwargs w
  | SetAttr o a _ =>
      match deref w o with
      | Some (Document _) => (w, Ok VNone)
      | _ => fail "AttributeError" a w
      end
  end.

Definition lib : library := λ a σ,
  let '(w, r) := answer a (lib_state σ) in (Store w (attrs σ), r).

(** Two partitions, three columns, three rows. *)
Definition taxi : table Z :=
  Table ["pickup_x"; "dropoff_x"; "dropoff_y"]
        [ [[1; 10; 20]; [2; 11; 21]]; [[3; 12; 22]] ].

Definition boot (d : gmap string (table Z)) : store :=
  Store (World d [] ∅) ∅.

(** A disk that holds the dataset at the path the script reads. *)
Definition with_data : store := boot {[ data_path := taxi ]}.

(** A disk without it. *)
Definition without_data : store := boot ∅.

Definition dataset (w : world) (p : string) : option (table Z) := disk w !! p.

(** The bokeh backend has been loaded. *)
Definition ready (w : world) : Prop := "bokeh" ∈ backends w.

(** The failure of a renderer whose backend has not been. *)
Definition uninitialised (e : exn) : Prop := e = Exn "BackendNotLoaded" "bokeh".

(** The library only adds: objects stay what they are, loaded backends
    stay loaded, the disk is not written. *)
Definition extends (w w' : world) : Prop :=
  disk w' = disk w
  ∧ (∀ b, b ∈ backends w → b ∈ backends w')
  ∧ (∀ l o, objects w !! l = Some o → objects w' !! l = Some o).

(** The run on the disk with the dataset, the run on the disk without it,
    and the first of them up to the end of the loading line. *)
Definition completed : state * outcome globals := run (hv_obj lib) with_data.

Definition failed : state * outcome globals := run (hv_obj lib) without_data.

Definition materialised : state * outcome pyval :=
  (startup lib ≫= λ _, load_data lib) (State with_data []).

Definition df : pyval :=
  match materialised.2 with
  | Ok v => v
  | Raise _ => VNone
  end.

Definition rasterised : state * outcome pyval := shade lib df materialised.1.

Definition not_found : exn :=
  Exn "FileNotFoundError" "../data/nyc_taxi_hours.parq/".

(** Line 8 alone on the disk with the dataset, and lines 12-13 on what
    line 9 produced. *)
Definition loaded_alone : state * outcome pyval :=
  load_data lib (State with_data []).

Definition shaded : pyval :=
  match rasterised.2 with
  | Ok v => v
  | Raise _ => VNone
  end.

Definition served : state * outcome pyval := render lib shaded rasterised.1.

End Demo.

(** * Properties *)

Ltac unfold_script :=
  unfold run, hv_obj, startup, present, imports, load_data, shade, render,
    import, call, perform, setattr, bind_attr, log, mbind, M_bind, mret,
    M_ret;
  simpl.

Ltac finished := intros [= <- <-]; simpl.

Ltac each_event H :=
  repeat (apply elem_of_cons in H as [-> | H]; simpl);
  try (by apply elem_of_nil in H).

(** The events of a trace that can be a given one. *)
Ltac event_in H :=
  repeat (let E := fresh "E" in
          apply elem_of_cons in H as [E | H]; [try discriminate E|]);
  try (by apply elem_of_nil in H).

(** A closed membership among names that does not hold. *)
Ltac no_such_site H :=
  exfalso; apply (bool_decide_pack _) in H; vm_compute in H; exact H.

Ltac exec_call lib :=
  match goal with
  | |- context [lib ?a ?σ] =>
      destruct (lib a σ) as [? [?|?]] eqn:?; simpl
  | |- context [match ?o with VRef _ => _ | _ => _ end] =>
      is_var o; destruct o; simpl
  end.

(** Symbolic execution: one case per place where the run can stop. *)
Ltac exec lib := unfold_script; repeat exec_call lib.

(** ** The script, for every library *)

Section Script.

Context {W : Type} (lib : library (W := W)).

(** C1.  When the script completes, the document it produced (the value
    [server_doc] returned, bound to [doc]) has the title attribute
    "HoloViews Bokeh App". *)
Theorem title_after_run (σ : store) (s : state) (g : globals) :
  run (hv_obj lib) σ = (s, Ok g) →
  getattr (attrs (st_store s)) (g_doc g) "title"
    = Some (VStr "HoloViews Bokeh App")
  ∧ ∃ rdr,
      Event (Call (Method rdr "server_doc") [g_shaded g] []) (Ok (g_doc g))
        ∈ st_trace s.
Proof.
  exec lib; try discriminate.
  intros [= <- <-]; simpl. split.
  - by rewrite lookup_insert_eq; simpl; rewrite lookup_insert_eq.
  - eexists. do 11 apply list_elem_of_further. apply list_elem_of_here.
Qed.

(** C4.  When a call of the loading line raises, the script ends with that
    very exception: nothing catches it, the failed call is the last thing
    the run did, and neither the renderer lookup, nor [server_doc], nor the
    title assignment is executed, so no document exists. *)
Theorem load_failure_propagates (σ : store) (s : state) (r : outcome globals)
    (ev : event) (e : exn) :
  run (hv_obj lib) σ = (s, r) →
  ev ∈ st_trace s →
  site (ev_action ev) ∈ ["dd.read_parquet"; ".__getitem__"; ".persist"] →
  ev_result ev = Raise e →
  r = Raise e
  ∧ last (st_trace s) = Some ev
  ∧ (∀ ev', ev' ∈ st_trace s →
       site (ev_action ev') ∉ ["hv.renderer"; ".server_doc"; ".title ="]).
Proof.
  exec lib; finished; intros Hev Hsite Hres.
  all: each_event Hev; try discriminate Hres.
  all: try no_such_site Hsite.
  all: injection Hres as ->; split; [done|]; split; [done|].
  all: intros ev' Hev'; each_event Hev'.
  all: apply (bool_decide_unpack _); by vm_compute.
Qed.

(** C5, as the code has it.  The statements a run has executed are an
    initial segment of the script, in source order, none of them twice.  A
    run either completes, and has then executed all thirteen statements
    once each (loading, rasterization, rendering, title assignment, in
    that order), or it stops at its first failing statement: everything
    before it succeeded and nothing after it is executed.  The title is
    only ever set on the document that an earlier [server_doc] call
    returned. *)
Theorem linear_until_failure (σ : store) (s : state) (r : outcome globals) :
  run (hv_obj lib) σ = (s, r) →
  sites (st_trace s) `prefix_of` script_sites
  ∧ NoDup (sites (st_trace s))
  ∧ (∀ i ev, st_trace s !! i = Some ev → (S i < length (st_trace s))%nat →
       ∃ v, ev_result ev = Ok v)
  ∧ (∀ g, r = Ok g →
       sites (st_trace s) = script_sites
       ∧ ∀ ev, ev ∈ st_trace s → ∃ v, ev_result ev = Ok v)
  ∧ (∀ e, r = Raise e → ∃ a, last (st_trace s) = Some (Event a (Raise e)))
  ∧ (∀ i o a v res,
       st_trace s !! i = Some (Event (SetAttr o a v) res) →
       ∃ j rdr shaded,
         (j < i)%nat ∧
         st_trace s !! j =
           Some (Event (Call (Method rdr "server_doc") [shaded] []) (Ok o))).
Proof.
  exec lib; finished.
  all: split; [by eexists|].
  all: split; [apply (bool_decide_unpack _); by vm_compute|].
  all: split;
    [intros i ev Hi Hlt;
     do 13 (destruct i as [|i]; simpl in Hi, Hlt;
            [first [ discriminate Hi
                   | injection Hi as <-; simpl;
                     first [ by eexists | exfalso; lia ] ]|]);
     discriminate Hi|].
  all: split;
    [first [ by intros ? [=]
           | intros ? _; split; [reflexivity|];
             intros ev Hev; each_event Hev; by eexists ]|].
  all: split; [first [ by intros ? [=] | intros ? [= <-]; by eexists ]|].
  all: intros i ? ? ? ? Hi.
  all: do 13 (destruct i as [|i]; simpl in Hi; [try discriminate|]);
    try discriminate.
  all: injection Hi as <- <- <- <-; exists 11%nat; eexists _, _;
    (split; [lia|reflexivity]).
Qed.

(** C9.  Everything a run asks of the libraries is an initial segment of
    the thirteen requests below, whose arguments are the script's literals
    and the values earlier requests returned.  The path
    [../data/nyc_taxi_hours.parq/] is the argument of [dd.read_parquet];
    no other request is given a path, and none of them is a request to
    write.  Once the backend is loaded the dataset is read, and it is read
    at most once.  A completed run has made all thirteen requests, a failed
    one ends with the request that failed. *)
Theorem only_path_read (σ : store) (s : state) (r : outcome globals) :
  run (hv_obj lib) σ = (s, r) →
  ∃ ddf sel df pts img shaded rdr doc,
    (ev_action <$> st_trace s) `prefix_of`
      [ Import "dask.dataframe";
        Import "holoviews";
        Import "holoviews.operation.datashader";
        Call (Global "hv.extension") [VStr "bokeh"] [];
        Call (Global "dd.read_parquet") [VStr "../data/nyc_taxi_hours.parq/"] [];
        Call (Method ddf "__getitem__")
             [VList [VStr "dropoff_x"; VStr "dropoff_y"]] [];
        Call (Method sel "persist") [] [];
        Call (Global "hv.Points") [df] [];
        Call (Global "datashade") [pts] [];
        Call (Method img "opts") []
             [("plot", VDict [("width", VInt 800); ("height", VInt 600);
                                  ("bgcolor", VStr "black")])];
        Call (Global "hv.renderer") [VStr "bokeh"] [];
        Call (Method rdr "server_doc") [shaded] [];
        SetAttr doc "title" (VStr "HoloViews Bokeh App") ]
    ∧ (∀ i ev v, st_trace s !! i = Some ev → ev_result ev = Ok v →
         (4 ≤ i < 12)%nat →
         [ddf; sel; df; pts; img; shaded; rdr; doc] !! (i - 4)%nat = Some v)
    ∧ (∀ v, Event (Call (Global "hv.extension") [VStr "bokeh"] []) (Ok v)
              ∈ st_trace s →
         ∃ res,
           Event (Call (Global "dd.read_parquet")
                    [VStr "../data/nyc_taxi_hours.parq/"] []) res
             ∈ st_trace s)
    ∧ (length (filter (λ x, x = "dd.read_parquet") (sites (st_trace s))) ≤ 1)%nat
    ∧ (∀ g, r = Ok g → length (st_trace s) = 13%nat)
    ∧ (∀ e, r = Raise e → ∃ a, last (st_trace s) = Some (Event a (Raise e))).
Proof.
  exec lib; finished.
  all: eexists _, _, _, _, _, _, _, _.
  all: split; [by eexists|].
  all: split;
    [intros i ev v Hi Hv Hrange;
     do 13 (destruct i as [|i]; simpl in Hi;
            [first [ discriminate Hi
                   | injection Hi as <-; simpl in Hv;
                     first [ discriminate Hv | exfalso; lia
                           | injection Hv as <-; reflexivity ] ]|]);
     discriminate Hi|].
  all: split;
    [intros v Hv; event_in Hv;
     eexists; do 4 apply list_elem_of_further; apply list_elem_of_here|].
  all: split; [vm_compute; lia|].
  all: split; [first [ by intros ? [=] | by intros ? _ ]|].
  all: first [ by intros ? [=] | intros ? [= <-]; by eexists ].
  Unshelve. all: exact VNone.
Qed.

End Script.

(** ** More about the script, for every library *)

Section Dataflow.

Context {W : Type} (lib : library (W := W)).

(** A completed run is this chain of thirteen events: each call is made on
    the value the call before it returned.  The frame read from the path is
    only indexed, the two-column selection is what is persisted and bound to
    [df], [df] only goes into [hv.Points], and [server_doc] is given the
    object that carries the options. *)
Theorem completed_run_dataflow (σ : store) (s : state) (g : globals) :
  run (hv_obj lib) σ = (s, Ok g) →
  ∃ m1 m2 m3 ext ddf sel pts img rdr,
    st_trace s =
      [ Event (Import "dask.dataframe") (Ok m1);
        Event (Import "holoviews") (Ok m2);
        Event (Import "holoviews.operation.datashader") (Ok m3);
        Event (Call (Global "hv.extension") [VStr "bokeh"] []) (Ok ext);
        Event (Call (Global "dd.read_parquet")
                 [VStr "../data/nyc_taxi_hours.parq/"] []) (Ok ddf);
        Event (Call (Method ddf "__getitem__")
                 [VList [VStr "dropoff_x"; VStr "dropoff_y"]] []) (Ok sel);
        Event (Call (Method sel "persist") [] []) (Ok (g_df g));
        Event (Call (Global "hv.Points") [g_df g] []) (Ok pts);
        Event (Call (Global "datashade") [pts] []) (Ok img);
        Event (Call (Method img "opts") []
                 [("plot", VDict [("width", VInt 800); ("height", VInt 600);
                                  ("bgcolor", VStr "black")])])
              (Ok (g_shaded g));
        Event (Call (Global "hv.renderer") [VStr "bokeh"] []) (Ok rdr);
        Event (Call (Method rdr "server_doc") [g_shaded g] []) (Ok (g_doc g));
        Event (SetAttr (g_doc g) "title" (VStr "HoloViews Bokeh App"))
              (Ok VNone) ].
Proof.
  exec lib; try discriminate.
  intros [= <- <-]; simpl. by eexists _, _, _, _, _, _, _, _, _.
Qed.

(** The script stops at the first failure.  In every run all events but
    the last succeeded; a failed run ends with the event that raised the
    exception the script ends with; in a completed run nothing failed. *)
Theorem stops_at_first_failure (σ : store) (s : state) (r : outcome globals) :
  run (hv_obj lib) σ = (s, r) →
  (∀ i ev, st_trace s !! i = Some ev → (S i < length (st_trace s))%nat →
     ∃ v, ev_result ev = Ok v)
  ∧ (∀ e, r = Raise e → ∃ a, last (st_trace s) = Some (Event a (Raise e)))
  ∧ (∀ g, r = Ok g → ∀ ev, ev ∈ st_trace s → ∃ v, ev_result ev = Ok v).
Proof.
  exec lib; finished.
  all: split; [|split].
  all: try (intros ? [=]; subst; by eexists).
  all: try (intros ? [=]).
  all: try (intros i ev Hi Hlt;
            do 13 (destruct i as [|i]; simpl in Hi, Hlt;
                   [first [ discriminate Hi
                          | injection Hi as <-; simpl;
                            first [ by eexists | exfalso; lia ] ]|]);
            discriminate Hi).
  all: intros ev Hev; each_event Hev; by eexists.
Qed.

(** Where a failure of the script comes from.  It is either the exception
    some library code raised (an import, a call, or the assignment
    [doc.title = ...] refused by the type of the document), with the store
    as that code left it; or it is the AttributeError of an assignment on
    None, a number, a string, a list or a dict, when that is what
    [server_doc] returned.  The script raises nothing else. *)
Theorem script_raises_only_at_title (σ : store) (s : state) (e : exn) :
  run (hv_obj lib) σ = (s, Raise e) →
  (∃ a σ0,
     last (st_trace s) = Some (Event a (Raise e))
     ∧ lib a σ0 = (st_store s, Raise e))
  ∨ (∃ rdr shaded doc,
       last (st_trace s) =
         Some (Event (SetAttr doc "title" (VStr "HoloViews Bokeh App"))
                     (Raise e))
       ∧ (∀ l, doc ≠ VRef l)
       ∧ e = Exn "AttributeError" "title"
       ∧ Event (Call (Method rdr "server_doc") [shaded] []) (Ok doc)
           ∈ st_trace s).
Proof.
  exec lib; try discriminate; intros [= <- <-]; simpl.
  all: first
    [ left; eexists _, _; split; [reflexivity|eassumption]
    | right; eexists _, _, _; split; [reflexivity|];
      split; [by intros l [=]|]; split; [reflexivity|];
      do 11 apply list_elem_of_further; apply list_elem_of_here ].
Qed.

(** Line 8, from any state and however it ends: what is persisted is the
    selection of the columns [dropoff_x], [dropoff_y] (in this order) of
    the frame read from the path, never the whole frame. *)
Theorem load_data_dataflow (s0 s : state) (r : outcome pyval) :
  load_data lib s0 = (s, r) →
  ∃ tr,
    st_trace s = st_trace s0 ++ tr
    ∧ (∀ ev, ev ∈ tr → site (ev_action ev) = ".persist" →
         ∃ ddf sel,
           ev_action ev = Call (Method sel "persist") [] []
           ∧ Event (Call (Method ddf "__getitem__")
                      [VList [VStr "dropoff_x"; VStr "dropoff_y"]] [])
                   (Ok sel) ∈ tr
           ∧ Event (Call (Global "dd.read_parquet")
                      [VStr "../data/nyc_taxi_hours.parq/"] [])
                   (Ok ddf) ∈ tr)
    ∧ (∀ df, r = Ok df →
         ∃ ddf sel,
           tr = [ Event (Call (Global "dd.read_parquet")
                           [VStr "../data/nyc_taxi_hours.parq/"] []) (Ok ddf);
                  Event (Call (Method ddf "__getitem__")
                           [VList [VStr "dropoff_x"; VStr "dropoff_y"]] [])
                        (Ok sel);
                  Event (Call (Method sel "persist") [] []) (Ok df) ]).
Proof.
  exec lib; finished; rewrite <- ?app_assoc; simpl.
  all: eexists; split; [reflexivity|]; split.
  all: try (intros ev Hev Hsite; each_event Hev; vm_compute in Hsite;
            first [ discriminate Hsite
                  | eexists _, _; split; [reflexivity|]; split;
                    [apply list_elem_of_further, list_elem_of_here
                    |apply list_elem_of_here] ]).
  all: intros df [=]; subst; by eexists _, _.
Qed.

(** Lines 12-13, from any state and however they end: [server_doc] is
    called on the renderer that [hv.renderer('bokeh')] returned, with the
    object to display as its only argument; the title is set on the
    document it returned, once, and that document is the result. *)
Theorem render_dataflow (shaded : pyval) (s0 s : state) (r : outcome pyval) :
  render lib shaded s0 = (s, r) →
  ∃ tr,
    st_trace s = st_trace s0 ++ tr
    ∧ (∀ ev, ev ∈ tr → site (ev_action ev) = ".server_doc" →
         ∃ rdr,
           ev_action ev = Call (Method rdr "server_doc") [shaded] []
           ∧ Event (Call (Global "hv.renderer") [VStr "bokeh"] []) (Ok rdr)
               ∈ tr)
    ∧ (∀ doc, r = Ok doc →
         ∃ rdr,
           tr = [ Event (Call (Global "hv.renderer") [VStr "bokeh"] [])
                        (Ok rdr);
                  Event (Call (Method rdr "server_doc") [shaded] []) (Ok doc);
                  Event (SetAttr doc "title" (VStr "HoloViews Bokeh App"))
                        (Ok VNone) ]).
Proof.
  exec lib; finished; rewrite <- ?app_assoc; simpl.
  all: eexists; split; [reflexivity|]; split.
  all: try (intros ev Hev Hsite; each_event Hev; vm_compute in Hsite;
            first [ discriminate Hsite
                  | eexists; split; [reflexivity|];
                    apply list_elem_of_here ]).
  all: intros doc [=]; subst; by eexists.
Qed.

(** The attribute the script writes.  When the libraries leave the
    attribute dictionaries alone, a failed run leaves them exactly as they
    were, and a completed run has changed one binding: [title] of the
    document. *)
Theorem only_title_written (σ : store) (s : state) (r : outcome globals) :
  (∀ a σ0 σ1 res, lib a σ0 = (σ1, res) → attrs σ1 = attrs σ0) →
  run (hv_obj lib) σ = (s, r) →
  (∀ e, r = Raise e → attrs (st_store s) = attrs σ)
  ∧ (∀ g, r = Ok g →
       ∃ l, g_doc g = VRef l
            ∧ attrs (st_store s) =
                <[l := <["title" := VStr "HoloViews Bokeh App"]>
                         (default ∅ (attrs σ !! l))]> (attrs σ)).
Proof.
  intros Hkeep. exec lib; finished.
  all: repeat match goal with
       | H : lib _ _ = _ |- _ => apply Hkeep in H
       end.
  all: split; [intros ? [=]; congruence|].
  all: intros g [=]; subst. eexists; split; [reflexivity|]. simpl. congruence.
Qed.

(** Line 9, for every [df], from any state: [hv.Points] is called on [df];
    if it returns, [datashade] is called on the point set and on nothing
    else (no size, no colour); if that returns, [.opts] is called on its
    result with the plot options width 800, height 600 and background
    "black", and what [.opts] does is what the line does.  A failure ends
    the line where it occurs. *)
Theorem shade_run_shape (df : pyval) (s0 s : state) (r : outcome pyval) :
  shade lib df s0 = (s, r) →
  ∃ r1,
    match r1 with
    | Raise e =>
        st_trace s =
          st_trace s0 ++ [ Event (Call (Global "hv.Points") [df] []) (Raise e) ]
        ∧ r = Raise e
    | Ok pts =>
        ∃ r2,
          match r2 with
          | Raise e =>
              st_trace s =
                st_trace s0 ++
                  [ Event (Call (Global "hv.Points") [df] []) (Ok pts);
                    Event (Call (Global "datashade") [pts] []) (Raise e) ]
              ∧ r = Raise e
          | Ok img =>
              st_trace s =
                st_trace s0 ++
                  [ Event (Call (Global "hv.Points") [df] []) (Ok pts);
                    Event (Call (Global "datashade") [pts] []) (Ok img);
                    Event (Call (Method img "opts") []
                             [("plot", VDict [("width", VInt 800); ("height", VInt 600);
                                  ("bgcolor", VStr "black")])]) r ]
          end
    end.
Proof.
  exec lib; finished; rewrite <- ?app_assoc; simpl.
  all: first
    [ eexists (Raise _); simpl; split; reflexivity
    | eexists (Ok _); simpl; eexists (Raise _); simpl; split; reflexivity
    | eexists (Ok _); simpl; eexists (Ok _); simpl; reflexivity ].
Qed.






End Dataflow.


(** ** Column selection *)

Section Select.

Context {cell : Type}.
Implicit Types (t : table cell) (cols : list string).

Lemma select_Some cols t :
  Forall (λ c, c ∈ colnames t) cols → is_Some (select cols t).
Proof.
  intros H. unfold select.
  replace (forallb _ cols) with true; [by eexists|].
  symmetry. induction H as [|c cols Hc _ IH]; simpl; [done|].
  by rewrite bool_decide_true, IH.
Qed.

Lemma select_colnames cols t t' :
  select cols t = Some t' → colnames t' = cols.
Proof.
  unfold select. destruct (forallb _ cols); [|done]. by intros [= <-].
Qed.

Lemma nrows_map (f : list cell → list cell) (ps : list (list (list cell))) :
  sum_list (length <$> map (map f) ps) = sum_list (length <$> ps).
Proof.
  induction ps as [|p ps IH]; simpl; [done|].
  rewrite length_map. f_equal. exact IH.
Qed.

Lemma select_nrows cols t t' :
  select cols t = Some t' → nrows t' = nrows t.
Proof.
  unfold select. destruct (forallb _ cols); [|done].
  intros [= <-]. apply nrows_map.
Qed.

End Select.

(** ** The loader, against the contract of the dataframe library *)

Section Dataframe.

Context {W cell : Type} (lib : library (W := W)).

(** The dataset the library finds at a path, and the table a dataframe
    handle stands for. *)
Variable dataset : W → string → option (table cell).
Variable frame : W → pyval → option (table cell).

Hypothesis read_parquet_spec : ∀ σ p t,
  dataset (lib_state σ) p = Some t →
  ∃ σ' v, lib (Call (Global "dd.read_parquet") [VStr p] []) σ = (σ', Ok v)
          ∧ frame (lib_state σ') v = Some t.

Hypothesis getitem_spec : ∀ σ v cols t t',
  frame (lib_state σ) v = Some t →
  select cols t = Some t' →
  ∃ σ' v', lib (Call (Method v "__getitem__") [VList (VStr <$> cols)] []) σ
             = (σ', Ok v')
           ∧ frame (lib_state σ') v' = Some t'.

Hypothesis persist_spec : ∀ σ v t,
  frame (lib_state σ) v = Some t →
  ∃ σ' v', lib (Call (Method v "persist") [] []) σ = (σ', Ok v')
           ∧ frame (lib_state σ') v' = Some t.

(** C2.  From a state in which the path holds a dataset with columns
    [dropoff_x] and [dropoff_y], the loading line completes, and the
    table [df] stands for has exactly the columns [dropoff_x], [dropoff_y]
    and as many rows as the dataset. *)
Theorem load_data_columns_rows (s0 : state) (src : table cell) :
  dataset (lib_state (st_store s0)) "../data/nyc_taxi_hours.parq/" = Some src →
  "dropoff_x" ∈ colnames src →
  "dropoff_y" ∈ colnames src →
  ∃ s df t,
    load_data lib s0 = (s, Ok df)
    ∧ frame (lib_state (st_store s)) df = Some t
    ∧ colnames t = ["dropoff_x"; "dropoff_y"]
    ∧ nrows t = nrows src.
Proof.
  intros Hsrc Hx Hy.
  destruct (select_Some ["dropoff_x"; "dropoff_y"] src) as [t Ht].
  { by repeat constructor. }
  destruct (read_parquet_spec _ _ _ Hsrc) as (σ1 & ddf & E1 & F1).
  destruct (getitem_spec _ _ _ _ _ F1 Ht) as (σ2 & sel & E2 & F2).
  destruct (persist_spec _ _ _ F2) as (σ3 & df & E3 & F3).
  eexists _, df, t. split; [|split; [|split]].
  - unfold load_data, call, perform, mbind, M_bind, data_path.
    rewrite E1. simpl in E2 |- *. rewrite E2. simpl. rewrite E3. reflexivity.
  - exact F3.
  - by eapply select_colnames.
  - by eapply select_nrows.
Qed.

End Dataframe.

(** ** The rendering backend *)

Section Backend.

Context {W : Type} (lib : library (W := W)).

(** [ready w]: the bokeh extension has been initialised.
    [uninitialised e]: [e] is the failure a renderer reports when it has
    not been. *)
Variable ready : W → Prop.
Variable uninitialised : exn → Prop.

Hypothesis extension_ready : ∀ σ σ' v,
  lib (Call (Global "hv.extension") [VStr "bokeh"] []) σ = (σ', Ok v) →
  ready (lib_state σ').

Hypothesis ready_kept : ∀ a σ σ' r,
  lib a σ = (σ', r) → ready (lib_state σ) → ready (lib_state σ').

Hypothesis uninitialised_unready : ∀ a σ σ' e,
  renders a = true →
  lib a σ = (σ', Raise e) → uninitialised e → ¬ ready (lib_state σ).

Ltac known_ready σ :=
  match goal with _ : ready (lib_state σ) |- _ => idtac end.

Ltac chain_ready :=
  repeat match goal with
  | H : lib (Call (Global "hv.extension") _ _) _ = (?σ', Ok _) |- _ =>
      tryif known_ready σ' then fail
      else pose proof (extension_ready _ _ _ H)
  | H : lib _ ?σ = (?σ', _), R : ready (lib_state ?σ) |- _ =>
      tryif known_ready σ' then fail
      else pose proof (ready_kept _ _ _ _ H R)
  end.

(** C10.  Every use of the renderer in a run (the lookup
    [hv.renderer('bokeh')] and [server_doc]) comes after a successful
    [hv.extension('bokeh')], and therefore never fails for want of an
    initialised backend. *)
Theorem renderer_initialised (σ : store) (s : state) (r : outcome globals) :
  run (hv_obj lib) σ = (s, r) →
  (∀ i ev, st_trace s !! i = Some ev → renders (ev_action ev) = true →
     ∃ j v, (j < i)%nat ∧
       st_trace s !! j =
         Some (Event (Call (Global "hv.extension") [VStr "bokeh"] []) (Ok v)))
  ∧ (∀ ev e, ev ∈ st_trace s → renders (ev_action ev) = true →
       ev_result ev = Raise e → ¬ uninitialised e).
Proof.
  exec lib; finished; chain_ready.
  all: split.
  all: try (intros i ev Hi Hr;
            do 13 (destruct i as [|i]; simpl in Hi;
                   [first [ discriminate Hi
                          | injection Hi as <-; vm_compute in Hr;
                            first [ discriminate Hr
                                  | exists 3%nat; eexists;
                                    split; [lia|reflexivity] ] ]|]);
            discriminate Hi).
  all: intros ev err Hev Hr Hres Hun; each_event Hev;
    vm_compute in Hr; try discriminate Hr; try discriminate Hres.
  all: injection Hres as ->.
  all: eapply uninitialised_unready; [| eassumption | exact Hun | assumption];
    reflexivity.
Qed.

End Backend.

(** ** The executable library meets the contracts *)

Module DemoFacts.
Import Demo.

Lemma lib_answer a σ σ' r :
  lib a σ = (σ', r) →
  answer a (lib_state σ) = (lib_state σ', r) ∧ attrs σ' = attrs σ.
Proof.
  unfold lib. destruct (answer a (lib_state σ)) as [w r'].
  by intros [= <- <-].
Qed.

Lemma extends_refl w : extends w w.
Proof. by repeat split. Qed.

Lemma fail_extends cls arg w w' r :
  fail cls arg w = (w', r) → extends w w'.
Proof. intros [= <- <-]. apply extends_refl. Qed.

Lemma new_extends o w w' r : new o w = (w', r) → extends w w'.
Proof.
  intros [= <- <-]. repeat split; simpl; [done|].
  intros l o' Hl. rewrite lookup_insert_ne; [done|].
  intros <-. apply (is_fresh (dom (objects w))).
  apply elem_of_dom. by eexists.
Qed.

Lemma answer_extends a w w' r : answer a w = (w', r) → extends w w'.
Proof.
  destruct a as [m|[f|recv f] args kwargs|o attr v]; simpl.
  - intros [= <- <-]. apply extends_refl.
  - unfold global_call. repeat case_match;
      eauto using fail_extends, new_extends.
    intros [= <- <-]. repeat split; simpl; [|done].
    intros b' Hb'. by apply list_elem_of_further.
  - unfold method_call. repeat case_match;
      eauto using fail_extends, new_extends.
  - repeat case_match; eauto using fail_extends.
    intros [= <- <-]. apply extends_refl.
Qed.

Lemma extends_frame w w' v t :
  extends w w' → frame w v = Some t → frame w' v = Some t.
Proof.
  intros (_ & _ & Hobj). unfold frame, deref.
  destruct v; try done.
  destruct (objects w !! l) as [o|] eqn:E; [|done].
  by rewrite (Hobj _ _ E).
Qed.

Lemma frame_new t w : ∃ w' v, new (Frame t) w = (w', Ok v) ∧ frame w' v = Some t.
Proof.
  eexists _, _. split; [reflexivity|].
  unfold frame, deref; simpl. by rewrite lookup_insert_eq.
Qed.

Lemma frame_deref w v t : frame w v = Some t → deref w v = Some (Frame t).
Proof.
  unfold frame. destruct (deref w v) as [[]|]; try done. by intros [= ->].
Qed.

Lemma names_of_strings cols : names (VList (VStr <$> cols)) = Some cols.
Proof.
  unfold names. apply mapM_Some.
  induction cols as [|c cols IH]; by constructor.
Qed.

Lemma read_parquet_ok σ p t :
  dataset (lib_state σ) p = Some t →
  ∃ σ' v, lib (Call (Global "dd.read_parquet") [VStr p] []) σ = (σ', Ok v)
          ∧ frame (lib_state σ') v = Some t.
Proof.
  intros H. destruct (frame_new t (lib_state σ)) as (w' & v & E & F).
  exists (Store w' (attrs σ)), v. split; [|exact F].
  unfold lib; simpl. unfold global_call; simpl.
  unfold dataset in H. by rewrite H, E.
Qed.

Lemma getitem_ok σ v cols t t' :
  frame (lib_state σ) v = Some t →
  select cols t = Some t' →
  ∃ σ' v', lib (Call (Method v "__getitem__") [VList (VStr <$> cols)] []) σ
             = (σ', Ok v')
           ∧ frame (lib_state σ') v' = Some t'.
Proof.
  intros Hv Hsel. destruct (frame_new t' (lib_state σ)) as (w' & v' & E & F).
  exists (Store w' (attrs σ)), v'. split; [|exact F].
  unfold lib. cbn [answer]. unfold method_call.
  rewrite (frame_deref _ _ _ Hv). cbn [String.eqb Ascii.eqb Bool.eqb].
  rewrite names_of_strings. cbn [mbind option_bind]. by rewrite Hsel, E.
Qed.

Lemma persist_ok σ v t :
  frame (lib_state σ) v = Some t →
  ∃ σ' v', lib (Call (Method v "persist") [] []) σ = (σ', Ok v')
           ∧ frame (lib_state σ') v' = Some t.
Proof.
  intros Hv. destruct (frame_new t (lib_state σ)) as (w' & v' & E & F).
  exists (Store w' (attrs σ)), v'. split; [|exact F].
  unfold lib. cbn [answer]. unfold method_call.
  rewrite (frame_deref _ _ _ Hv). cbn [String.eqb Ascii.eqb Bool.eqb].
  by rewrite E.
Qed.

Lemma extension_ready_ok σ σ' v :
  lib (Call (Global "hv.extension") [VStr "bokeh"] []) σ = (σ', Ok v) →
  ready (lib_state σ').
Proof. intros [= <- _]. apply list_elem_of_here. Qed.

Lemma ready_kept_ok a σ σ' r :
  lib a σ = (σ', r) → ready (lib_state σ) → ready (lib_state σ').
Proof.
  intros [H _]%lib_answer. apply answer_extends in H as (_ & Hb & _).
  apply Hb.
Qed.

Lemma uninitialised_unready_ok a σ σ' e :
  renders a = true →
  lib a σ = (σ', Raise e) → uninitialised e → ¬ ready (lib_state σ).
Proof.
  intros Hr [H _]%lib_answer ->. unfold ready.
  apply bool_decide_eq_true in Hr.
  destruct a as [m|[f|recv f] args kwargs|o attr v]; simpl in *;
    try discriminate H.
  - apply elem_of_cons in Hr as [-> | Hr].
    + unfold global_call in H; simpl in H.
      repeat case_match; try discriminate H.
      injection H as _ ->.
      match goal with L : loaded _ _ = false |- _ =>
        by apply bool_decide_eq_false in L end.
    + apply elem_of_cons in Hr as [-> | Hr]; [|by apply elem_of_nil in Hr].
      discriminate H.
  - apply elem_of_cons in Hr as [Hr | Hr]; [discriminate Hr|].
    apply elem_of_cons in Hr as [Hr | Hr]; [|by apply elem_of_nil in Hr].
    injection Hr as Hf. cbv in Hf. subst f.
    unfold method_call in H; simpl in H.
    repeat case_match; try discriminate H.
    injection H as _ ->.
    match goal with L : loaded _ _ = false |- _ =>
      by apply bool_decide_eq_false in L end.
  - unfold fail in H. repeat case_match; discriminate H.
Qed.

End DemoFacts.

(** ** The theorems at work on the executable library *)

Example select_taxi :
  select ["dropoff_x"; "dropoff_y"] Demo.taxi
    = Some (Table ["dropoff_x"; "dropoff_y"]
                  [ [[10; 20]; [11; 21]]; [[12; 22]] ]).
Proof. reflexivity. Qed.

Example select_missing_column :
  select ["dropoff_x"; "fare"] Demo.taxi = None.
Proof. reflexivity. Qed.

Example completed_globals :
  Demo.completed.2
    = Ok (Globals (VRef 3%positive) (VRef 6%positive) (VRef 8%positive)).
Proof. vm_compute. reflexivity. Qed.

Example completed_sites : sites (st_trace Demo.completed.1) = script_sites.
Proof. vm_compute. reflexivity. Qed.

Example failed_sites :
  sites (st_trace Demo.failed.1)
    = [ "import dask.dataframe"; "import holoviews";
        "import holoviews.operation.datashader"; "hv.extension";
        "dd.read_parquet" ]
  ∧ Demo.failed.2 = Raise Demo.not_found.
Proof. vm_compute. split; reflexivity. Qed.

Example title_on_none :
  (setattr Demo.lib VNone "title" (VStr "HoloViews Bokeh App")
     Demo.rasterised.1).2
    = Raise (Exn "AttributeError" "title").
Proof. reflexivity. Qed.

Example title_on_frame :
  (setattr Demo.lib Demo.df "title" (VStr "HoloViews Bokeh App")
     Demo.rasterised.1).2
    = Raise (Exn "AttributeError" "title").
Proof. vm_compute. reflexivity. Qed.

(** C5 as it is worded ("in every run ... each execute exactly once") does
    not hold of a run that fails: without the dataset the script stops at
    [dd.read_parquet], and rasterization, rendering and the title
    assignment are executed zero times. *)
Lemma single_shot_fails_without_data :
  ¬ (∀ step,
       step ∈ ["dd.read_parquet"; "datashade"; ".server_doc"; ".title ="] →
       length (filter (λ x, x = step) (sites (st_trace Demo.failed.1)))
         = 1%nat).
Proof.
  intros H. specialize (H "datashade").
  assert (Hin : "datashade"
                  ∈ ["dd.read_parquet"; "datashade"; ".server_doc"; ".title ="])
    by apply list_elem_of_further, list_elem_of_here.
  apply H in Hin. vm_compute in Hin. discriminate Hin.
Qed.

Lemma linear_until_failure_demo :
  sites (st_trace Demo.completed.1) `prefix_of` script_sites
  ∧ NoDup (sites (st_trace Demo.completed.1))
  ∧ (∀ i ev, st_trace Demo.completed.1 !! i = Some ev →
       (S i < length (st_trace Demo.completed.1))%nat →
       ∃ v, ev_result ev = Ok v)
  ∧ (∀ g, Demo.completed.2 = Ok g →
       sites (st_trace Demo.completed.1) = script_sites
       ∧ ∀ ev, ev ∈ st_trace Demo.completed.1 → ∃ v, ev_result ev = Ok v)
  ∧ (∀ e, Demo.completed.2 = Raise e →
       ∃ a, last (st_trace Demo.completed.1) = Some (Event a (Raise e)))
  ∧ (∀ i o a v res,
       st_trace Demo.completed.1 !! i = Some (Event (SetAttr o a v) res) →
       ∃ j rdr shaded,
         (j < i)%nat ∧
         st_trace Demo.completed.1 !! j =
           Some (Event (Call (Method rdr "server_doc") [shaded] []) (Ok o))).
Proof.
  apply (linear_until_failure Demo.lib Demo.with_data
           Demo.completed.1 Demo.completed.2).
  vm_compute. reflexivity.
Defined.

Lemma only_path_read_demo :
  ∃ ddf sel df pts img shaded rdr doc,
    (ev_action <$> st_trace Demo.completed.1) `prefix_of`
      [ Import "dask.dataframe";
        Import "holoviews";
        Import "holoviews.operation.datashader";
        Call (Global "hv.extension") [VStr "bokeh"] [];
        Call (Global "dd.read_parquet") [VStr "../data/nyc_taxi_hours.parq/"] [];
        Call (Method ddf "__getitem__")
             [VList [VStr "dropoff_x"; VStr "dropoff_y"]] [];
        Call (Method sel "persist") [] [];
        Call (Global "hv.Points") [df] [];
        Call (Global "datashade") [pts] [];
        Call (Method img "opts") []
             [("plot", VDict [("width", VInt 800); ("height", VInt 600);
                                  ("bgcolor", VStr "black")])];
        Call (Global "hv.renderer") [VStr "bokeh"] [];
        Call (Method rdr "server_doc") [shaded] [];
        SetAttr doc "title" (VStr "HoloViews Bokeh App") ]
    ∧ (∀ i ev v, st_trace Demo.completed.1 !! i = Some ev →
         ev_result ev = Ok v →
         (4 ≤ i < 12)%nat →
         [ddf; sel; df; pts; img; shaded; rdr; doc] !! (i - 4)%nat = Some v)
    ∧ (∀ v, Event (Call (Global "hv.extension") [VStr "bokeh"] []) (Ok v)
              ∈ st_trace Demo.completed.1 →
         ∃ res,
           Event (Call (Global "dd.read_parquet")
                    [VStr "../data/nyc_taxi_hours.parq/"] []) res
             ∈ st_trace Demo.completed.1)
    ∧ (length (filter (λ x, x = "dd.read_parquet")
                 (sites (st_trace Demo.completed.1))) ≤ 1)%nat
    ∧ (∀ g, Demo.completed.2 = Ok g →
         length (st_trace Demo.completed.1) = 13%nat)
    ∧ (∀ e, Demo.completed.2 = Raise e →
         ∃ a, last (st_trace Demo.completed.1) = Some (Event a (Raise e))).
Proof.
  apply (only_path_read Demo.lib Demo.with_data
           Demo.completed.1 Demo.completed.2).
  vm_compute. reflexivity.
Defined.

Lemma title_after_run_demo :
  getattr (attrs (st_store Demo.completed.1)) (VRef 8%positive) "title"
    = Some (VStr "HoloViews Bokeh App")
  ∧ ∃ rdr,
      Event (Call (Method rdr "server_doc") [VRef 6%positive] [])
            (Ok (VRef 8%positive))
        ∈ st_trace Demo.completed.1.
Proof.
  apply (title_after_run Demo.lib Demo.with_data Demo.completed.1
           (Globals (VRef 3%positive) (VRef 6%positive) (VRef 8%positive))).
  vm_compute. reflexivity.
Defined.

Lemma load_failure_propagates_demo :
  Demo.failed.2 = Raise Demo.not_found
  ∧ last (st_trace Demo.failed.1) =
      Some (Event (Call (Global "dd.read_parquet")
                      [VStr "../data/nyc_taxi_hours.parq/"] [])
                  (Raise Demo.not_found))
  ∧ (∀ ev', ev' ∈ st_trace Demo.failed.1 →
       site (ev_action ev') ∉ ["hv.renderer"; ".server_doc"; ".title ="]).
Proof.
  apply (load_failure_propagates Demo.lib Demo.without_data
           Demo.failed.1 Demo.failed.2
           (Event (Call (Global "dd.read_parquet")
                      [VStr "../data/nyc_taxi_hours.parq/"] [])
                  (Raise Demo.not_found))
           Demo.not_found).
  - vm_compute. reflexivity.
  - vm_compute. do 4 apply list_elem_of_further. apply list_elem_of_here.
  - vm_compute. apply list_elem_of_here.
  - reflexivity.
Defined.

Lemma load_data_columns_rows_demo :
  ∃ s df t,
    load_data Demo.lib (State Demo.with_data []) = (s, Ok df)
    ∧ Demo.frame (lib_state (st_store s)) df = Some t
    ∧ colnames t = ["dropoff_x"; "dropoff_y"]
    ∧ nrows t = nrows Demo.taxi.
Proof.
  apply (load_data_columns_rows Demo.lib Demo.dataset Demo.frame
           DemoFacts.read_parquet_ok DemoFacts.getitem_ok
           DemoFacts.persist_ok (State Demo.with_data []) Demo.taxi).
  - vm_compute. reflexivity.
  - vm_compute. apply list_elem_of_further, list_elem_of_here.
  - vm_compute. do 2 apply list_elem_of_further. apply list_elem_of_here.
Defined.

Lemma renderer_initialised_demo :
  (∀ i ev, st_trace Demo.completed.1 !! i = Some ev →
     renders (ev_action ev) = true →
     ∃ j v, (j < i)%nat ∧
       st_trace Demo.completed.1 !! j =
         Some (Event (Call (Global "hv.extension") [VStr "bokeh"] []) (Ok v)))
  ∧ (∀ ev e, ev ∈ st_trace Demo.completed.1 →
       renders (ev_action ev) = true →
       ev_result ev = Raise e → ¬ Demo.uninitialised e).
Proof.
  apply (renderer_initialised Demo.lib Demo.ready Demo.uninitialised
           DemoFacts.extension_ready_ok DemoFacts.ready_kept_ok
           DemoFacts.uninitialised_unready_ok
           Demo.with_data Demo.completed.1 Demo.completed.2).
  vm_compute. reflexivity.
Defined.

Lemma completed_run_dataflow_demo :
  ∃ m1 m2 m3 ext ddf sel pts img rdr,
    st_trace Demo.completed.1 =
      [ Event (Import "dask.dataframe") (Ok m1);
        Event (Import "holoviews") (Ok m2);
        Event (Import "holoviews.operation.datashader") (Ok m3);
        Event (Call (Global "hv.extension") [VStr "bokeh"] []) (Ok ext);
        Event (Call (Global "dd.read_parquet")
                 [VStr "../data/nyc_taxi_hours.parq/"] []) (Ok ddf);
        Event (Call (Method ddf "__getitem__")
                 [VList [VStr "dropoff_x"; VStr "dropoff_y"]] []) (Ok sel);
        Event (Call (Method sel "persist") [] []) (Ok (VRef 3%positive));
        Event (Call (Global "hv.Points") [VRef 3%positive] []) (Ok pts);
        Event (Call (Global "datashade") [pts] []) (Ok img);
        Event (Call (Method img "opts") []
                 [("plot", VDict [("width", VInt 800); ("height", VInt 600);
                                  ("bgcolor", VStr "black")])])
              (Ok (VRef 6%positive));
        Event (Call (Global "hv.renderer") [VStr "bokeh"] []) (Ok rdr);
        Event (Call (Method rdr "server_doc") [VRef 6%positive] [])
              (Ok (VRef 8%positive));
        Event (SetAttr (VRef 8%positive) "title" (VStr "HoloViews Bokeh App"))
              (Ok VNone) ].
Proof.
  apply (completed_run_dataflow Demo.lib Demo.with_data Demo.completed.1
           (Globals (VRef 3%positive) (VRef 6%positive) (VRef 8%positive))).
  vm_compute. reflexivity.
Defined.

Lemma stops_at_first_failure_demo :
  (∀ i ev, st_trace Demo.failed.1 !! i = Some ev →
     (S i < length (st_trace Demo.failed.1))%nat →
     ∃ v, ev_result ev = Ok v)
  ∧ (∀ e, Demo.failed.2 = Raise e →
       ∃ a, last (st_trace Demo.failed.1) = Some (Event a (Raise e)))
  ∧ (∀ g, Demo.failed.2 = Ok g →
       ∀ ev, ev ∈ st_trace Demo.failed.1 → ∃ v, ev_result ev = Ok v).
Proof.
  apply (stops_at_first_failure Demo.lib Demo.without_data
           Demo.failed.1 Demo.failed.2).
  vm_compute. reflexivity.
Defined.

Lemma script_raises_only_at_title_demo :
  (∃ a σ0,
     last (st_trace Demo.failed.1) = Some (Event a (Raise Demo.not_found))
     ∧ Demo.lib a σ0 = (st_store Demo.failed.1, Raise Demo.not_found))
  ∨ (∃ rdr shaded doc,
       last (st_trace Demo.failed.1) =
         Some (Event (SetAttr doc "title" (VStr "HoloViews Bokeh App"))
                     (Raise Demo.not_found))
       ∧ (∀ l, doc ≠ VRef l)
       ∧ Demo.not_found = Exn "AttributeError" "title"
       ∧ Event (Call (Method rdr "server_doc") [shaded] []) (Ok doc)
           ∈ st_trace Demo.failed.1).
Proof.
  apply (script_raises_only_at_title Demo.lib Demo.without_data
           Demo.failed.1 Demo.not_found).
  vm_compute. reflexivity.
Defined.

Lemma load_data_dataflow_demo :
  ∃ tr,
    st_trace Demo.loaded_alone.1 = st_trace (State Demo.with_data []) ++ tr
    ∧ (∀ ev, ev ∈ tr → site (ev_action ev) = ".persist" →
         ∃ ddf sel,
           ev_action ev = Call (Method sel "persist") [] []
           ∧ Event (Call (Method ddf "__getitem__")
                      [VList [VStr "dropoff_x"; VStr "dropoff_y"]] [])
                   (Ok sel) ∈ tr
           ∧ Event (Call (Global "dd.read_parquet")
                      [VStr "../data/nyc_taxi_hours.parq/"] [])
                   (Ok ddf) ∈ tr)
    ∧ (∀ df, Demo.loaded_alone.2 = Ok df →
         ∃ ddf sel,
           tr = [ Event (Call (Global "dd.read_parquet")
                           [VStr "../data/nyc_taxi_hours.parq/"] []) (Ok ddf);
                  Event (Call (Method ddf "__getitem__")
                           [VList [VStr "dropoff_x"; VStr "dropoff_y"]] [])
                        (Ok sel);
                  Event (Call (Method sel "persist") [] []) (Ok df) ]).
Proof.
  apply (load_data_dataflow Demo.lib (State Demo.with_data [])
           Demo.loaded_alone.1 Demo.loaded_alone.2).
  vm_compute. reflexivity.
Defined.

Lemma render_dataflow_demo :
  ∃ tr,
    st_trace Demo.served.1 = st_trace Demo.rasterised.1 ++ tr
    ∧ (∀ ev, ev ∈ tr → site (ev_action ev) = ".server_doc" →
         ∃ rdr,
           ev_action ev = Call (Method rdr "server_doc") [Demo.shaded] []
           ∧ Event (Call (Global "hv.renderer") [VStr "bokeh"] []) (Ok rdr)
               ∈ tr)
    ∧ (∀ doc, Demo.served.2 = Ok doc →
         ∃ rdr,
           tr = [ Event (Call (Global "hv.renderer") [VStr "bokeh"] [])
                        (Ok rdr);
                  Event (Call (Method rdr "server_doc") [Demo.shaded] [])
                        (Ok doc);
                  Event (SetAttr doc "title" (VStr "HoloViews Bokeh App"))
                        (Ok VNone) ]).
Proof.
  apply (render_dataflow Demo.lib Demo.shaded Demo.rasterised.1
           Demo.served.1 Demo.served.2).
  vm_compute. reflexivity.
Defined.

Lemma only_title_written_demo :
  (∀ e, Demo.completed.2 = Raise e →
     attrs (st_store Demo.completed.1) = attrs Demo.with_data)
  ∧ (∀ g, Demo.completed.2 = Ok g →
       ∃ l, g_doc g = VRef l
            ∧ attrs (st_store Demo.completed.1) =
                <[l := <["title" := VStr "HoloViews Bokeh App"]>
                         (default ∅ (attrs Demo.with_data !! l))]>
                  (attrs Demo.with_data)).
Proof.
  apply (only_title_written Demo.lib Demo.with_data
           Demo.completed.1 Demo.completed.2).
  - intros a σ0 σ1 res H. exact (proj2 (DemoFacts.lib_answer a σ0 σ1 res H)).
  - vm_compute. reflexivity.
Defined.

Lemma shade_run_shape_demo :
  ∃ r1,
    match r1 with
    | Raise e =>
        st_trace Demo.rasterised.1 =
          st_trace Demo.materialised.1
            ++ [ Event (Call (Global "hv.Points") [Demo.df] []) (Raise e) ]
        ∧ Demo.rasterised.2 = Raise e
    | Ok pts =>
        ∃ r2,
          match r2 with
          | Raise e =>
              st_trace Demo.rasterised.1 =
                st_trace Demo.materialised.1 ++
                  [ Event (Call (Global "hv.Points") [Demo.df] []) (Ok pts);
                    Event (Call (Global "datashade") [pts] []) (Raise e) ]
              ∧ Demo.rasterised.2 = Raise e
          | Ok img =>
              st_trace Demo.rasterised.1 =
                st_trace Demo.materialised.1 ++
                  [ Event (Call (Global "hv.Points") [Demo.df] []) (Ok pts);
                    Event (Call (Global "datashade") [pts] []) (Ok img);
                    Event (Call (Method img "opts") []
                             [("plot", VDict [("width", VInt 800); ("height", VInt 600);
                                  ("bgcolor", VStr "black")])]) Demo.rasterised.2 ]
          end
    end.
Proof.
  apply (shade_run_shape Demo.lib Demo.df Demo.materialised.1
           Demo.rasterised.1 Demo.rasterised.2).
  vm_compute. reflexivity.
Defined.

